(** * mu_time: absolute and relative time on the POSIX platform

    A shallow embedding of [src/platform/mu_time_posix.c] together with the
    types of [inc/platform/mu_time_posix.h].

    Platform assumptions (the targets selected by [mu_time_impl.h] for the
    POSIX header are LP64: 64-bit Linux and macOS):
    - [time_t], [long] and [int64_t] are 64-bit two's complement integers;
    - [int] is 32 bits wide, [uint32_t] is [unsigned int];
    - [float] is IEEE 754 binary32, evaluated in single precision with
      round-to-nearest-even.

    Integers are modelled as [Z] with the wrap-around of every operation
    written out.  Signed overflow is given its two's complement result,
    which is what the supported targets compute. *)

From Stdlib Require Import ZArith Lia Bool QArith Qround Qpower.
From Stdlib Require Import SpecFloat.

Local Open Scope Z_scope.

(** ** C integer arithmetic *)

Definition int64_modulus : Z := 18446744073709551616.
Definition int64_half : Z := 9223372036854775808.
Definition INT64_MAX : Z := 9223372036854775807.
Definition INT64_MIN : Z := -9223372036854775808.
Definition uint32_modulus : Z := 4294967296.

(** Reduction of an integer to the signed 64-bit value with the same
    residue modulo 2^64. *)
Definition wrap64 (x : Z) : Z :=
  (x + int64_half) mod int64_modulus - int64_half.

(** Reduction to an unsigned 32-bit value: conversion to [uint32_t]. *)
Definition wrapu32 (x : Z) : Z := x mod uint32_modulus.

Definition in_int64 (x : Z) : Prop := INT64_MIN <= x <= INT64_MAX.
Definition in_uint32 (x : Z) : Prop := 0 <= x < uint32_modulus.

Definition add64 (a b : Z) : Z := wrap64 (a + b).
Definition sub64 (a b : Z) : Z := wrap64 (a - b).
Definition mul64 (a b : Z) : Z := wrap64 (a * b).
Definition neg64 (a : Z) : Z := wrap64 (- a).

(** [/] and [%] on [int64_t]: C99 truncates the quotient toward zero and the
    remainder takes the sign of the dividend.  The only divisors in the
    program are positive constants, so neither operation can overflow. *)
Definition div64 (a b : Z) : Z := Z.quot a b.
Definition rem64 (a b : Z) : Z := Z.rem a b.

(** [*] on [unsigned int]: the product is reduced modulo 2^32. *)
Definition mulu32 (a b : Z) : Z := wrapu32 (a * b).

(** ** Types of [mu_time_posix.h] *)

(** [mu_time_abs_t]: [time_t seconds; long nanoseconds]. *)
Record mu_time_abs_t : Set := mk_abs { seconds : Z; nanoseconds : Z }.

(** [mu_time_rel_t] is [int64_t]: signed nanoseconds. *)
Definition mu_time_rel_t : Set := Z.

Definition NANOS_PER_SEC : Z := 1000000000.

(** The documented range of the [nanoseconds] field. *)
Definition normalized (t : mu_time_abs_t) : Prop :=
  0 <= nanoseconds t < NANOS_PER_SEC.

(** The instant denoted by a timestamp, in nanoseconds since the epoch. *)
Definition abs_nanos (t : mu_time_abs_t) : Z :=
  seconds t * NANOS_PER_SEC + nanoseconds t.

(** ** The clock primitive *)

(** [struct timespec]. *)
Record timespec : Set := mk_timespec { tv_sec : Z; tv_nsec : Z }.

(** What a call of [clock_gettime] can do: succeed and report a time, or
    fail with an error number.  POSIX does not say what the buffer holds
    after a failed call, so a failure carries [leaves], which maps the content
    of the buffer before the call to its content after it (the identity
    when the library leaves the buffer untouched). *)
Inductive clock_outcome : Set :=
| ClockOk (now : timespec)
| ClockFail (errno : Z) (leaves : timespec -> timespec).

(** [clock_gettime(clk, &buf)]: on success the buffer is overwritten and 0 is
    returned; on failure -1 is returned. *)
Definition clock_gettime (o : clock_outcome) (buf : timespec) : Z * timespec :=
  match o with
  | ClockOk now => (0, now)
  | ClockFail _ leaves => (-1, leaves buf)
  end.

(** ** Functions of [mu_time_posix.c] *)

(** [mu_time_now].  The local [ts] is not initialised: [stack] is whatever
    the object holds before the call (its address is taken, so reading it
    yields an unspecified value).  The status of [clock_gettime] is
    discarded. *)
Definition mu_time_now (o : clock_outcome) (stack : timespec) : mu_time_abs_t :=
  let '(_, ts) := clock_gettime o stack in
  {| seconds := tv_sec ts; nanoseconds := tv_nsec ts |}.

Definition mu_time_rel_max : mu_time_rel_t := INT64_MAX.

Definition mu_time_offset (base : mu_time_abs_t) (delta : mu_time_rel_t)
  : mu_time_abs_t :=
  let result_seconds := add64 (seconds base) (div64 delta 1000000000) in
  let result_nanoseconds := add64 (nanoseconds base) (rem64 delta 1000000000) in
  if 1000000000 <=? result_nanoseconds then
    {| seconds := add64 result_seconds 1;
       nanoseconds := sub64 result_nanoseconds 1000000000 |}
  else
    {| seconds := result_seconds; nanoseconds := result_nanoseconds |}.

Definition mu_time_difference (a b : mu_time_abs_t) : mu_time_rel_t :=
  add64 (mul64 (sub64 (seconds b) (seconds a)) 1000000000)
        (sub64 (nanoseconds b) (nanoseconds a)).

Definition mu_time_is_before (a b : mu_time_abs_t) : bool :=
  (seconds a <? seconds b)
  || ((seconds a =? seconds b) && (nanoseconds a <? nanoseconds b)).

Definition mu_time_is_after (a b : mu_time_abs_t) : bool :=
  (seconds a >? seconds b)
  || ((seconds a =? seconds b) && (nanoseconds a >? nanoseconds b)).

(** [mu_time_rel_from_millis]: both operands of [*] have rank of [int], one
    of them unsigned, so the product is computed in [unsigned int]; only the
    product is widened to [int64_t]. *)
Definition mu_time_rel_from_millis (milliseconds : Z) : mu_time_rel_t :=
  mulu32 milliseconds 1000000.

(** [mu_time_rel_to_millis]: 64-bit division, then conversion to
    [uint32_t]. *)
Definition mu_time_rel_to_millis (delta_t : mu_time_rel_t) : Z :=
  wrapu32 (div64 delta_t 1000000).

(** ** C single-precision arithmetic *)

(** IEEE 754 binary32: 24 bits of precision, infinities at exponent 128.
    The operations are the ones of the standard library's specification of
    floating-point arithmetic, which round to nearest, ties to even. *)
Definition f32_prec : Z := 24.
Definition f32_emax : Z := 128.

Definition f32_valid (x : spec_float) : bool :=
  valid_binary f32_prec f32_emax x.

Definition f32_is_finite (x : spec_float) : bool :=
  match x with
  | S754_zero _ | S754_finite _ _ _ => true
  | S754_infinity _ | S754_nan => false
  end.

Definition f32_mul (x y : spec_float) : spec_float :=
  SFmul f32_prec f32_emax x y.

Definition f32_div (x y : spec_float) : spec_float :=
  SFdiv f32_prec f32_emax x y.

(** Conversion of an integer to [float]. *)
Definition f32_of_int (n : Z) : spec_float :=
  binary_normalize f32_prec f32_emax n 0 false.

(** Conversion of a [float] to [int64_t].  The fractional bits of the
    magnitude are discarded.  C leaves the conversion undefined for NaN,
    the infinities and values whose integral part does not fit: [None]. *)
Definition f32_to_int64 (x : spec_float) : option Z :=
  match x with
  | S754_zero _ => Some 0
  | S754_finite s m e =>
      let r := cond_Zopp s (Z.shiftl (Zpos m) e) in
      if (INT64_MIN <=? r) && (r <=? INT64_MAX) then Some r else None
  | S754_infinity _ | S754_nan => None
  end.

(** The rational number that a finite [float] denotes. *)
Definition f32_to_Q (x : spec_float) : Q :=
  match x with
  | S754_finite s m e => (inject_Z (cond_Zopp s (Zpos m)) * Qpower 2 e)%Q
  | _ => 0%Q
  end.

(** Truncation of a rational toward zero. *)
Definition Qtrunc (q : Q) : Z :=
  if Qle_bool 0 q then Qfloor q else Qceiling q.

(** Some [float] values used below. *)
Definition f32_1_5 : spec_float := S754_finite false 12582912 (-23).
Definition f32_0_7 : spec_float := S754_finite false 11744051 (-24).
Definition f32_1e10 : spec_float := S754_finite false 9765625 10.
Definition f32_neg_7_2m32 : spec_float := S754_finite true 14680064 (-53).

(** [mu_time_rel_from_seconds]: the [int] constant is converted to [float],
    the product is a [float], and the cast converts it to [int64_t]. *)
Definition mu_time_rel_from_seconds (delta_t : spec_float) : option mu_time_rel_t :=
  f32_to_int64 (f32_mul delta_t (f32_of_int 1000000000)).

(** [mu_time_rel_to_seconds]: [(float)delta_t / 1000000000.0f]. *)
Definition mu_time_rel_to_seconds (delta_t : mu_time_rel_t) : spec_float :=
  f32_div (f32_of_int delta_t) (f32_of_int 1000000000).

(** ** [test/test_mu_time_posix.c] *)

(** [test_mu_time_now]: two consecutive reads of the clock and three
    [TEST_ASSERT_TRUE] checks; the test passes when all three conditions
    are true. *)
Definition test_mu_time_now (o1 o2 : clock_outcome) (stack1 stack2 : timespec)
  : bool :=
  let t1 := mu_time_now o1 stack1 in
  let t2 := mu_time_now o2 stack2 in
  (seconds t1 >? 0)
  && ((nanoseconds t1 >=? 0) && (nanoseconds t1 <? 1000000000))
  && (mu_time_is_before t1 t2 || (seconds t1 =? seconds t2)).

(** ** Facts about the integer model *)

Ltac unfold_c_ints :=
  unfold add64, sub64, mul64, neg64, div64, rem64, mulu32, wrap64, wrapu32,
    in_int64, in_uint32, INT64_MAX, INT64_MIN, int64_half, int64_modulus,
    uint32_modulus, NANOS_PER_SEC in *.

Lemma wrap64_range (x : Z) : in_int64 (wrap64 x).
Proof. unfold_c_ints. Z.div_mod_to_equations. lia. Qed.

Lemma wrap64_id (x : Z) : in_int64 x -> wrap64 x = x.
Proof. unfold_c_ints. intros H. Z.div_mod_to_equations. lia. Qed.

(** Two integers have the same 64-bit representation exactly when they are
    congruent modulo 2^64. *)
Lemma wrap64_eqm_iff (x y : Z) :
  wrap64 x = wrap64 y <-> eqm int64_modulus x y.
Proof. unfold eqm. unfold_c_ints. Z.div_mod_to_equations. lia. Qed.

Lemma wrap64_eqm (x : Z) : eqm int64_modulus (wrap64 x) x.
Proof. apply wrap64_eqm_iff, wrap64_id, wrap64_range. Qed.

#[local] Existing Instances eqm_setoid Zplus_eqm Zminus_eqm Zmult_eqm Zopp_eqm.

(** Reduce an equation between 64-bit results to a congruence between the
    unreduced expressions. *)
Ltac wrap64_to_eqm :=
  unfold add64, sub64, mul64, neg64;
  apply wrap64_eqm_iff;
  rewrite ?wrap64_eqm.

Lemma quot_rem_nanos (d : Z) :
  Z.quot d 1000000000 * 1000000000 + Z.rem d 1000000000 = d.
Proof. pose proof (Z.quot_rem' d 1000000000). lia. Qed.

(** ** Difference *)

(** [mu_time_difference a b] is the 64-bit representation of the number of
    nanoseconds from [a] to [b]. *)
Lemma mu_time_difference_nanos (a b : mu_time_abs_t) :
  mu_time_difference a b = wrap64 (abs_nanos b - abs_nanos a).
Proof.
  unfold mu_time_difference, abs_nanos, NANOS_PER_SEC.
  wrap64_to_eqm.
  match goal with |- eqm _ ?l ?r => replace r with l by ring end.
  reflexivity.
Qed.

(** When the distance between the two instants fits in [int64_t], no
    reduction takes place. *)
Lemma mu_time_difference_exact (a b : mu_time_abs_t) :
  in_int64 (abs_nanos b - abs_nanos a) ->
  mu_time_difference a b = abs_nanos b - abs_nanos a.
Proof. intros H. rewrite mu_time_difference_nanos. now apply wrap64_id. Qed.

(** C6: [mu_time_difference] is anti-symmetric: exchanging the arguments
    negates the result (negation of an [int64_t]), and
    [mu_time_difference a b] is [b - a] in nanoseconds. *)
Theorem mu_time_difference_antisym (a b : mu_time_abs_t) :
  mu_time_difference a b = neg64 (mu_time_difference b a)
  /\ mu_time_difference a b = wrap64 (abs_nanos b - abs_nanos a).
Proof.
  split; [| apply mu_time_difference_nanos].
  rewrite !mu_time_difference_nanos.
  wrap64_to_eqm.
  match goal with |- eqm _ ?l ?r => replace r with l by ring end.
  reflexivity.
Qed.

Lemma mu_time_difference_opp_exact (a b : mu_time_abs_t) :
  in_int64 (abs_nanos b - abs_nanos a) ->
  abs_nanos b - abs_nanos a <> INT64_MIN ->
  mu_time_difference a b = - mu_time_difference b a.
Proof.
  intros H Hmin.
  rewrite (mu_time_difference_exact a b H).
  rewrite (mu_time_difference_exact b a).
  - unfold mu_time_rel_t. ring.
  - unfold_c_ints. lia.
Qed.

(** ** Offset *)

(** Modulo 2^64, the result of [mu_time_offset] denotes the instant
    [delta] nanoseconds after [base], whatever the sign of [delta]. *)
Lemma mu_time_offset_nanos (base : mu_time_abs_t) (delta : mu_time_rel_t) :
  wrap64 (abs_nanos (mu_time_offset base delta))
  = wrap64 (abs_nanos base + delta).
Proof.
  unfold mu_time_offset.
  destruct (1000000000 <=? _); unfold abs_nanos, NANOS_PER_SEC;
    cbn [seconds nanoseconds]; wrap64_to_eqm; unfold div64, rem64;
    set (q := Z.quot delta 1000000000); set (r := Z.rem delta 1000000000);
    replace delta with (q * 1000000000 + r) by apply quot_rem_nanos;
    match goal with |- eqm _ ?l ?r => replace r with l by ring end;
    reflexivity.
Qed.

(** When the seconds stay within [time_t] no operation of [mu_time_offset]
    wraps, and the result denotes exactly [delta] nanoseconds after
    [base]. *)
Lemma mu_time_offset_exact (base : mu_time_abs_t) (delta : mu_time_rel_t) :
  normalized base ->
  in_int64 (seconds base + Z.quot delta 1000000000) ->
  in_int64 (seconds base + Z.quot delta 1000000000 + 1) ->
  abs_nanos (mu_time_offset base delta) = abs_nanos base + delta.
Proof.
  unfold normalized, mu_time_offset, NANOS_PER_SEC. intros Hb Hs Hs1.
  assert (Hr : - 1000000000 < Z.rem delta 1000000000 < 1000000000)
    by (Z.quot_rem_to_equations; lia).
  assert (Hn : add64 (nanoseconds base) (rem64 delta 1000000000)
               = nanoseconds base + Z.rem delta 1000000000).
  { unfold add64, rem64. apply wrap64_id. unfold_c_ints. lia. }
  assert (Hq : add64 (seconds base) (div64 delta 1000000000)
               = seconds base + Z.quot delta 1000000000).
  { unfold add64, div64. now apply wrap64_id. }
  rewrite Hn, Hq. pose proof (quot_rem_nanos delta) as Hd.
  destruct (Z.leb_spec 1000000000 (nanoseconds base + Z.rem delta 1000000000));
    unfold abs_nanos, NANOS_PER_SEC; cbn [seconds nanoseconds].
  - unfold add64, sub64. rewrite !wrap64_id; [lia | unfold_c_ints; lia | exact Hs1].
  - lia.
Qed.

(** For a delta that is not negative the documented range of the
    nanoseconds field is preserved. *)
Lemma mu_time_offset_nonneg_normalized
  (base : mu_time_abs_t) (delta : mu_time_rel_t) :
  normalized base -> 0 <= delta ->
  normalized (mu_time_offset base delta).
Proof.
  unfold normalized, mu_time_offset, NANOS_PER_SEC. intros Hb Hd.
  pose proof (Z.rem_bound_pos delta 1000000000 Hd ltac:(lia)) as Hr.
  assert (Hn : add64 (nanoseconds base) (rem64 delta 1000000000)
               = nanoseconds base + Z.rem delta 1000000000).
  { unfold add64, rem64. apply wrap64_id. unfold_c_ints. lia. }
  rewrite Hn.
  destruct (Z.leb_spec 1000000000 (nanoseconds base + Z.rem delta 1000000000));
    cbn [nanoseconds]; [| lia].
  unfold sub64. rewrite wrap64_id; [lia |]. unfold_c_ints. lia.
Qed.

(** The case the code does not treat: when the remainder of a negative
    delta exceeds the nanoseconds of [base], the nanoseconds of the result
    are negative and nothing is borrowed from the seconds. *)
Lemma mu_time_offset_underflow (base : mu_time_abs_t) (delta : mu_time_rel_t) :
  normalized base ->
  nanoseconds base + Z.rem delta 1000000000 < 0 ->
  mu_time_offset base delta
  = {| seconds := add64 (seconds base) (Z.quot delta 1000000000);
       nanoseconds := nanoseconds base + Z.rem delta 1000000000 |}.
Proof.
  unfold normalized, mu_time_offset, NANOS_PER_SEC. intros Hb Hneg.
  assert (Hr : - 1000000000 < Z.rem delta 1000000000)
    by (Z.quot_rem_to_equations; lia).
  assert (Hn : add64 (nanoseconds base) (rem64 delta 1000000000)
               = nanoseconds base + Z.rem delta 1000000000).
  { unfold add64, rem64. apply wrap64_id. unfold_c_ints. lia. }
  rewrite Hn.
  destruct (Z.leb_spec 1000000000 (nanoseconds base + Z.rem delta 1000000000));
    [lia | reflexivity].
Qed.

(** C1 (the code departs from it): offsetting a normalized timestamp by a
    negative delta leaves a negative nanoseconds field; the underflow is
    not carried into the seconds. *)
Theorem mu_time_offset_negative_delta_unnormalized :
  normalized {| seconds := 1000; nanoseconds := 0 |}
  /\ mu_time_offset {| seconds := 1000; nanoseconds := 0 |} (-1)
     = {| seconds := 1000; nanoseconds := -1 |}
  /\ ~ normalized (mu_time_offset {| seconds := 1000; nanoseconds := 0 |} (-1)).
Proof.
  split; [| split].
  - unfold normalized, NANOS_PER_SEC. cbn. lia.
  - reflexivity.
  - unfold normalized. cbn. lia.
Qed.

(** C8: the scenario of [test_mu_time_offset]. *)
Theorem mu_time_offset_scenario :
  mu_time_offset {| seconds := 1000; nanoseconds := 500000000 |} 1500000000
  = {| seconds := 1002; nanoseconds := 0 |}.
Proof. reflexivity. Qed.

(** C3: the difference between a timestamp and its offset by [d] is [d],
    for every timestamp and every [int64_t] value [d]. *)
Theorem mu_time_difference_offset (t : mu_time_abs_t) (d : mu_time_rel_t) :
  in_int64 d ->
  mu_time_difference t (mu_time_offset t d) = d.
Proof.
  intros Hd. transitivity (wrap64 d); [| now apply wrap64_id].
  unfold mu_time_difference, mu_time_offset.
  destruct (1000000000 <=? _); cbn [seconds nanoseconds];
    wrap64_to_eqm; unfold div64, rem64;
    set (q := Z.quot d 1000000000); set (r := Z.rem d 1000000000);
    replace d with (q * 1000000000 + r) by apply quot_rem_nanos;
    match goal with |- eqm _ ?l ?r => replace r with l by ring end;
    reflexivity.
Qed.

Lemma mu_time_difference_offset_witness :
  in_int64 (-1500000000)
  /\ mu_time_difference {| seconds := 1000; nanoseconds := 500000000 |}
       (mu_time_offset {| seconds := 1000; nanoseconds := 500000000 |}
          (-1500000000))
     = -1500000000.
Proof.
  assert (H : in_int64 (-1500000000)) by (unfold_c_ints; lia).
  split; [exact H |].
  exact (mu_time_difference_offset
           {| seconds := 1000; nanoseconds := 500000000 |} (-1500000000) H).
Defined.

(** C7: [mu_time_rel_max] is the largest [int64_t] value, and offsetting
    [{1000, 0}] by it gives a timestamp that is after, and not before,
    [{1000, 0}]. *)
Theorem mu_time_rel_max_offset_is_after :
  (forall d : Z, wrap64 d <= mu_time_rel_max)
  /\ wrap64 mu_time_rel_max = mu_time_rel_max
  /\ mu_time_offset {| seconds := 1000; nanoseconds := 0 |} mu_time_rel_max
     = {| seconds := 9223373036; nanoseconds := 854775807 |}
  /\ mu_time_is_after
       (mu_time_offset {| seconds := 1000; nanoseconds := 0 |} mu_time_rel_max)
       {| seconds := 1000; nanoseconds := 0 |} = true
  /\ mu_time_is_before
       (mu_time_offset {| seconds := 1000; nanoseconds := 0 |} mu_time_rel_max)
       {| seconds := 1000; nanoseconds := 0 |} = false.
Proof.
  split; [| repeat split].
  intros d. pose proof (wrap64_range d) as H.
  unfold in_int64, mu_time_rel_max in *. lia.
Qed.

(** ** Ordering *)

Lemma mu_time_abs_eq (a b : mu_time_abs_t) :
  a = b <-> seconds a = seconds b /\ nanoseconds a = nanoseconds b.
Proof.
  split; [now intros -> |].
  destruct a, b; cbn; intros [-> ->]; reflexivity.
Qed.

(** [mu_time_is_before] is the lexicographic order on (seconds,
    nanoseconds). *)
Lemma mu_time_is_before_spec (a b : mu_time_abs_t) :
  mu_time_is_before a b = true
  <-> seconds a < seconds b
      \/ (seconds a = seconds b /\ nanoseconds a < nanoseconds b).
Proof.
  unfold mu_time_is_before.
  rewrite orb_true_iff, andb_true_iff, !Z.ltb_lt, Z.eqb_eq. reflexivity.
Qed.

Lemma mu_time_is_after_flip (a b : mu_time_abs_t) :
  mu_time_is_after a b = mu_time_is_before b a.
Proof.
  unfold mu_time_is_after, mu_time_is_before.
  now rewrite !Z.gtb_ltb, (Z.eqb_sym (seconds a)).
Qed.

Lemma mu_time_is_before_false (a b : mu_time_abs_t) :
  mu_time_is_before a b = false
  <-> seconds b < seconds a
      \/ (seconds a = seconds b /\ nanoseconds b <= nanoseconds a).
Proof.
  rewrite <- not_true_iff_false, mu_time_is_before_spec. lia.
Qed.

Lemma mu_time_is_before_trans (a b c : mu_time_abs_t) :
  mu_time_is_before a b = true -> mu_time_is_before b c = true ->
  mu_time_is_before a c = true.
Proof. rewrite !mu_time_is_before_spec. lia. Qed.

(** C5: [mu_time_is_before] and [mu_time_is_after] form a strict total
    order, lexicographic in seconds then nanoseconds: both are irreflexive,
    each is the converse of the other, exactly one of [a] before [b], [b]
    before [a], [a = b] holds, and the order is transitive. *)
Theorem mu_time_order_strict_total (a b c : mu_time_abs_t) :
  mu_time_is_before a a = false
  /\ mu_time_is_after a a = false
  /\ mu_time_is_before a b = mu_time_is_after b a
  /\ ((mu_time_is_before a b = true /\ mu_time_is_before b a = false /\ a <> b)
      \/ (mu_time_is_before a b = false /\ mu_time_is_before b a = true /\ a <> b)
      \/ (mu_time_is_before a b = false /\ mu_time_is_before b a = false /\ a = b))
  /\ implb (mu_time_is_before a b && mu_time_is_before b c)
           (mu_time_is_before a c) = true
  /\ mu_time_is_before a b
     = (seconds a <? seconds b)
       || ((seconds a =? seconds b) && (nanoseconds a <? nanoseconds b)).
Proof.
  split; [| split; [| split; [| split; [| split]]]].
  - apply mu_time_is_before_false. lia.
  - rewrite mu_time_is_after_flip. apply mu_time_is_before_false. lia.
  - now rewrite mu_time_is_after_flip.
  - rewrite mu_time_abs_eq, !mu_time_is_before_false, !mu_time_is_before_spec.
    lia.
  - destruct (mu_time_is_before a b) eqn:Hab;
      destruct (mu_time_is_before b c) eqn:Hbc; cbn; try reflexivity.
    now rewrite (mu_time_is_before_trans a b c Hab Hbc).
  - reflexivity.
Qed.

(** ** Milliseconds *)

(** As long as the product fits in 32 bits, the conversion scales by one
    million and converting back gives the argument. *)
Lemma mu_time_rel_millis_roundtrip_small (n : Z) :
  0 <= n <= 4294 ->
  mu_time_rel_from_millis n = n * 1000000
  /\ mu_time_rel_to_millis (mu_time_rel_from_millis n) = n.
Proof.
  intros Hn. unfold mu_time_rel_from_millis, mu_time_rel_to_millis.
  unfold mulu32, wrapu32, div64, uint32_modulus.
  rewrite (Z.mod_small (n * 1000000)) by lia.
  rewrite Z.quot_mul by lia.
  split; [reflexivity | apply Z.mod_small; lia].
Qed.

(** From 4295 ms on the 32-bit product wraps. *)
Lemma mu_time_rel_from_millis_wraps (n : Z) :
  4295 <= n < uint32_modulus ->
  mu_time_rel_from_millis n <> n * 1000000.
Proof.
  unfold mu_time_rel_from_millis, mulu32, wrapu32, uint32_modulus.
  intros Hn. Z.div_mod_to_equations. lia.
Qed.

(** C2 (the code departs from it): 5000 ms is an [uint32_t] whose
    nanosecond count fits in [mu_time_rel_t], yet the conversion yields
    705032704 ns and the round trip yields 705 ms. *)
Theorem mu_time_rel_from_millis_5000 :
  in_uint32 5000
  /\ in_int64 (5000 * 1000000)
  /\ mu_time_rel_from_millis 5000 = 705032704
  /\ mu_time_rel_to_millis (mu_time_rel_from_millis 5000) = 705.
Proof. unfold_c_ints. repeat split; lia. Qed.

(** Division truncated toward zero, for a negative dividend, is the
    opposite of the whole milliseconds of the magnitude. *)
Lemma quot_millis_negative (delta : Z) :
  delta < 0 -> Z.quot delta 1000000 = - ((- delta) / 1000000).
Proof.
  intros Hneg. rewrite <- (Z.opp_involutive delta) at 1.
  rewrite Z.quot_opp_l by lia. f_equal. apply Z.quot_div_nonneg; lia.
Qed.

(** C10, as the code has it: for a negative delta with [q] whole
    milliseconds of magnitude, the result is [- q] reduced modulo 2^32: zero
    when [q] is a multiple of 2^32, and 2^32 minus the residue of [q]
    otherwise.  In particular it is zero for a delta of less than one
    millisecond, and the value [2^32 - q], which is not zero, from one
    millisecond back to 2^32 milliseconds back. *)
Theorem mu_time_rel_to_millis_negative (delta : mu_time_rel_t) :
  in_int64 delta -> delta < 0 ->
  mu_time_rel_to_millis delta
  = (if ((- delta) / 1000000) mod 4294967296 =? 0 then 0
     else 4294967296 - ((- delta) / 1000000) mod 4294967296)
  /\ (-1000000 < delta -> mu_time_rel_to_millis delta = 0)
  /\ (-4294967296000000 < delta <= -1000000 ->
      mu_time_rel_to_millis delta = 4294967296 - (- delta) / 1000000
      /\ 0 < mu_time_rel_to_millis delta).
Proof.
  intros Hr Hneg. unfold mu_time_rel_to_millis, wrapu32, div64, uint32_modulus.
  rewrite (quot_millis_negative delta Hneg).
  set (q := (- delta) / 1000000).
  assert (Hq0 : 0 <= q) by (subst q; Z.div_mod_to_equations; lia).
  split; [| split].
  - destruct (Z.eqb_spec (q mod 4294967296) 0) as [Hz | Hnz];
      Z.div_mod_to_equations; lia.
  - intros Hsmall.
    assert (Hq : q = 0) by (subst q; Z.div_mod_to_equations; lia).
    rewrite Hq. reflexivity.
  - intros Hd.
    assert (Hq : 1 <= q <= 4294967295)
      by (subst q; Z.div_mod_to_equations; lia).
    Z.div_mod_to_equations. lia.
Qed.

Lemma mu_time_rel_to_millis_negative_witness :
  in_int64 (-1500000000) /\ -1500000000 < 0
  /\ mu_time_rel_to_millis (-1500000000) = 4294965796.
Proof.
  assert (Hr : in_int64 (-1500000000)) by (unfold_c_ints; lia).
  assert (Hn : -1500000000 < 0) by lia.
  split; [exact Hr | split; [exact Hn |]].
  destruct (mu_time_rel_to_millis_negative (-1500000000) Hr Hn)
    as (_ & _ & Hlarge).
  destruct Hlarge as [Hlarge _]; [lia |].
  rewrite Hlarge. reflexivity.
Defined.

(** C10 does not hold as stated: a negative delta of less than one
    millisecond is converted to zero, not to a large unsigned value. *)
Lemma mu_time_rel_to_millis_submillisecond_zero :
  in_int64 (-1) /\ -1 < 0
  /\ mu_time_rel_to_millis (-1) = 0
  /\ mu_time_rel_to_millis (-999999) = 0.
Proof. unfold_c_ints. repeat split; lia. Qed.

(** ** The clock *)

(** The status of [clock_gettime] is never inspected: after a failed call
    the result is made of whatever the call left in the local [timespec]. *)
Lemma mu_time_now_unchecked
  (errno : Z) (leaves : timespec -> timespec) (stack : timespec) :
  mu_time_now (ClockFail errno leaves) stack
  = {| seconds := tv_sec (leaves stack);
       nanoseconds := tv_nsec (leaves stack) |}.
Proof. reflexivity. Qed.

(** C4 (the code departs from it): [clock_gettime] fails with EPERM (1)
    and leaves the buffer untouched, and the local [ts], which is not
    initialised, holds -1 seconds and 2000000000 nanoseconds.  The call
    returns -1, yet [mu_time_now] returns that content: not a zero time,
    with nanoseconds outside of the documented range, and with seconds
    that fail the first assertion of [test_mu_time_now]. *)
Theorem mu_time_now_clock_failure :
  fst (clock_gettime (ClockFail 1 (fun buf => buf))
         {| tv_sec := -1; tv_nsec := 2000000000 |}) = -1
  /\ mu_time_now (ClockFail 1 (fun buf => buf))
       {| tv_sec := -1; tv_nsec := 2000000000 |}
     = {| seconds := -1; nanoseconds := 2000000000 |}
  /\ mu_time_now (ClockFail 1 (fun buf => buf))
       {| tv_sec := -1; tv_nsec := 2000000000 |}
     <> {| seconds := 0; nanoseconds := 0 |}
  /\ ~ normalized (mu_time_now (ClockFail 1 (fun buf => buf))
                     {| tv_sec := -1; tv_nsec := 2000000000 |})
  /\ test_mu_time_now (ClockFail 1 (fun buf => buf))
       (ClockOk {| tv_sec := 1700000000; tv_nsec := 0 |})
       {| tv_sec := -1; tv_nsec := 2000000000 |}
       {| tv_sec := -1; tv_nsec := 2000000000 |} = false.
Proof.
  split; [reflexivity | split; [reflexivity | split; [discriminate | split]]].
  - unfold normalized, NANOS_PER_SEC. cbn. lia.
  - reflexivity.
Qed.

(** ** Floating-point seconds *)

(** The constant 10^9 is a [float]: its conversion is exact. *)
Example f32_of_int_1e9 :
  f32_of_int 1000000000 = S754_finite false 15625000 6
  /\ f32_valid (f32_of_int 1000000000) = true
  /\ Qtrunc (f32_to_Q (f32_of_int 1000000000)) = 1000000000.
Proof. repeat split. Qed.

Lemma Qfloor_mul_pow2 (m : positive) (e : Z) :
  Qfloor (inject_Z (Zpos m) * Qpower 2 e) = Z.shiftl (Zpos m) e.
Proof.
  destruct (Z.le_gt_cases 0 e) as [He | He].
  - rewrite Z.shiftl_mul_pow2 by assumption.
    rewrite <- (Qfloor_Z (Z.pos m * 2 ^ e)).
    apply Qfloor_comp.
    rewrite inject_Z_mult, (Zpower_Qpower 2 e He). reflexivity.
  - rewrite <- (Z.opp_involutive e) at 2.
    rewrite Z.shiftl_opp_r, Z.shiftr_div_pow2 by lia.
    rewrite Zdiv_Qdiv. apply Qfloor_comp.
    rewrite (Zpower_Qpower 2 (- e)) by lia.
    rewrite Qpower_opp. unfold Qdiv. rewrite Qinv_involutive. reflexivity.
Qed.

Lemma Qpos_mul_pow2 (m : positive) (e : Z) :
  (0 < inject_Z (Zpos m) * Qpower 2 e)%Q.
Proof.
  apply Qmult_lt_0_compat; [reflexivity | apply Qpower_0_lt; reflexivity].
Qed.

Lemma Qtrunc_finite (s : bool) (m : positive) (e : Z) :
  Qtrunc (inject_Z (cond_Zopp s (Zpos m)) * Qpower 2 e)
  = cond_Zopp s (Z.shiftl (Zpos m) e).
Proof.
  pose proof (Qpos_mul_pow2 m e) as Hpos.
  unfold Qtrunc. destruct s; cbn [cond_Zopp].
  - assert (Hneg : (inject_Z (- Z.pos m) * Qpower 2 e
                    == - (inject_Z (Z.pos m) * Qpower 2 e))%Q).
    { rewrite inject_Z_opp. ring. }
    destruct (Qle_bool 0 (inject_Z (- Z.pos m) * Qpower 2 e)) eqn:Hle.
    + apply Qle_bool_iff in Hle. rewrite Hneg in Hle.
      exfalso. apply (Qlt_not_le _ _ Hpos).
      apply Qopp_le_compat in Hle. rewrite Qopp_involutive in Hle. exact Hle.
    + unfold Qceiling. f_equal. rewrite <- Qfloor_mul_pow2.
      apply Qfloor_comp. rewrite Hneg. apply Qopp_involutive.
  - destruct (Qle_bool 0 (inject_Z (Z.pos m) * Qpower 2 e)) eqn:Hle.
    + apply Qfloor_mul_pow2.
    + exfalso. apply not_true_iff_false in Hle. apply Hle.
      apply Qle_bool_iff, Qlt_le_weak, Hpos.
Qed.

Lemma f32_to_int64_trunc (p : spec_float) :
  f32_is_finite p = true ->
  in_int64 (Qtrunc (f32_to_Q p)) ->
  f32_to_int64 p = Some (Qtrunc (f32_to_Q p)).
Proof.
  destruct p as [s | s | | s m e]; cbn [f32_is_finite]; try discriminate.
  - reflexivity.
  - intros _. cbn [f32_to_Q f32_to_int64]. rewrite Qtrunc_finite.
    unfold in_int64. intros [Hlo Hhi].
    apply Z.leb_le in Hlo, Hhi. now rewrite Hlo, Hhi.
Qed.

(** C9, as the code has it: the product is formed in single precision,
    hence rounded to a [float], and the conversion to [int64_t] truncates
    that rounded product toward zero whenever it is finite and its integral
    part fits; 1.5 is converted to 1500000000. *)
Theorem mu_time_rel_from_seconds_truncates (x : spec_float) :
  f32_is_finite (f32_mul x (f32_of_int 1000000000)) = true ->
  in_int64 (Qtrunc (f32_to_Q (f32_mul x (f32_of_int 1000000000)))) ->
  mu_time_rel_from_seconds x
  = Some (Qtrunc (f32_to_Q (f32_mul x (f32_of_int 1000000000))))
  /\ mu_time_rel_from_seconds f32_1_5 = Some 1500000000.
Proof.
  intros Hfin Hrange. split; [| reflexivity].
  unfold mu_time_rel_from_seconds. now apply f32_to_int64_trunc.
Qed.

Lemma mu_time_rel_from_seconds_truncates_witness :
  f32_is_finite (f32_mul f32_neg_7_2m32 (f32_of_int 1000000000)) = true
  /\ in_int64
       (Qtrunc (f32_to_Q (f32_mul f32_neg_7_2m32 (f32_of_int 1000000000))))
  /\ mu_time_rel_from_seconds f32_neg_7_2m32
     = Some (Qtrunc (f32_to_Q (f32_mul f32_neg_7_2m32 (f32_of_int 1000000000)))).
Proof.
  assert (Hfin : f32_is_finite (f32_mul f32_neg_7_2m32 (f32_of_int 1000000000))
                 = true) by reflexivity.
  assert (Hrange : in_int64
            (Qtrunc (f32_to_Q (f32_mul f32_neg_7_2m32 (f32_of_int 1000000000)))))
    by (vm_compute; split; discriminate).
  split; [exact Hfin | split; [exact Hrange |]].
  exact (proj1 (mu_time_rel_from_seconds_truncates f32_neg_7_2m32 Hfin Hrange)).
Defined.

(** Truncation is toward zero for either sign: -7 * 2^-32 seconds is about
    -1.63 ns and converts to -1, its opposite converts to 1. *)
Example mu_time_rel_from_seconds_fraction :
  f32_valid f32_neg_7_2m32 = true
  /\ mu_time_rel_from_seconds f32_neg_7_2m32 = Some (-1)
  /\ mu_time_rel_from_seconds (SFopp f32_neg_7_2m32) = Some 1.
Proof. repeat split. Qed.

(** C9 does not hold as stated.  The float 0.7f is 11744051 * 2^-24; its
    exact product with 10^9 truncates to 699999988, but the single-precision
    product is rounded up to 700000000 before the conversion.  And for the
    float 10^10 the product is outside of [int64_t]: the conversion has no
    defined result. *)
Lemma mu_time_rel_from_seconds_rounds :
  f32_valid f32_0_7 = true
  /\ mu_time_rel_from_seconds f32_0_7 = Some 700000000
  /\ Qtrunc (f32_to_Q f32_0_7 * inject_Z 1000000000) = 699999988
  /\ mu_time_rel_from_seconds f32_0_7
     <> Some (Qtrunc (f32_to_Q f32_0_7 * inject_Z 1000000000))
  /\ f32_valid f32_1e10 = true
  /\ mu_time_rel_from_seconds f32_1e10 = None.
Proof.
  split; [reflexivity | split; [reflexivity | split; [reflexivity |]]].
  split; [| split; reflexivity].
  vm_compute. discriminate.
Qed.

(** The scenario of [test_mu_time_rel_to_seconds]. *)
Example mu_time_rel_to_seconds_scenario :
  mu_time_rel_to_seconds 1500000000 = f32_1_5.
Proof. reflexivity. Qed.

(** * Further properties of the code *)

(** ** Offset without wrap-around *)

(** With a normalized base and seconds that stay within [time_t], the
    fields of the result are given by exact integer arithmetic. *)
Lemma mu_time_offset_unwrapped (base : mu_time_abs_t) (delta : mu_time_rel_t) :
  normalized base ->
  in_int64 (seconds base + Z.quot delta 1000000000) ->
  in_int64 (seconds base + Z.quot delta 1000000000 + 1) ->
  mu_time_offset base delta
  = if 1000000000 <=? nanoseconds base + Z.rem delta 1000000000 then
      {| seconds := seconds base + Z.quot delta 1000000000 + 1;
         nanoseconds := nanoseconds base + Z.rem delta 1000000000 - 1000000000 |}
    else
      {| seconds := seconds base + Z.quot delta 1000000000;
         nanoseconds := nanoseconds base + Z.rem delta 1000000000 |}.
Proof.
  unfold normalized, mu_time_offset, NANOS_PER_SEC. intros Hb Hs Hs1.
  assert (Hr : - 1000000000 < Z.rem delta 1000000000 < 1000000000)
    by (Z.quot_rem_to_equations; lia).
  assert (Hn : add64 (nanoseconds base) (rem64 delta 1000000000)
               = nanoseconds base + Z.rem delta 1000000000).
  { unfold add64, rem64. apply wrap64_id. unfold_c_ints. lia. }
  assert (Hq : add64 (seconds base) (div64 delta 1000000000)
               = seconds base + Z.quot delta 1000000000).
  { unfold add64, div64. now apply wrap64_id. }
  rewrite Hn, Hq.
  destruct (Z.leb_spec 1000000000 (nanoseconds base + Z.rem delta 1000000000));
    [| reflexivity].
  unfold add64, sub64. rewrite !wrap64_id; [reflexivity | | exact Hs1].
  unfold_c_ints. lia.
Qed.

(** A normalized timestamp is determined by the instant it denotes. *)
Lemma normalized_nanos_inj (a b : mu_time_abs_t) :
  normalized a -> normalized b -> abs_nanos a = abs_nanos b -> a = b.
Proof.
  unfold normalized, abs_nanos, NANOS_PER_SEC. intros Ha Hb H.
  apply mu_time_abs_eq. lia.
Qed.

(** For normalized timestamps the lexicographic order is the order of the
    instants. *)
Lemma mu_time_is_before_nanos (a b : mu_time_abs_t) :
  normalized a -> normalized b ->
  (mu_time_is_before a b = true <-> abs_nanos a < abs_nanos b).
Proof.
  unfold normalized, abs_nanos, NANOS_PER_SEC. intros Ha Hb.
  rewrite mu_time_is_before_spec. lia.
Qed.

(** X1: offsetting a normalized timestamp by a delta that is not negative
    gives a normalized timestamp that denotes exactly [delta] nanoseconds
    after the base, as long as the seconds stay within [time_t]. *)
Theorem mu_time_offset_forward_correct
  (base : mu_time_abs_t) (delta : mu_time_rel_t) :
  normalized base -> 0 <= delta ->
  in_int64 (seconds base) ->
  seconds base + Z.quot delta 1000000000 + 1 <= INT64_MAX ->
  normalized (mu_time_offset base delta)
  /\ abs_nanos (mu_time_offset base delta) = abs_nanos base + delta.
Proof.
  intros Hb Hd Hs Hmax. split.
  - now apply mu_time_offset_nonneg_normalized.
  - apply mu_time_offset_exact; [exact Hb | |];
      unfold_c_ints; Z.quot_rem_to_equations; lia.
Qed.

Lemma mu_time_offset_forward_correct_witness :
  normalized (mu_time_offset {| seconds := 1000; nanoseconds := 999999999 |} 1)
  /\ abs_nanos (mu_time_offset {| seconds := 1000; nanoseconds := 999999999 |} 1)
     = abs_nanos {| seconds := 1000; nanoseconds := 999999999 |} + 1.
Proof.
  apply (mu_time_offset_forward_correct
           {| seconds := 1000; nanoseconds := 999999999 |} 1).
  - unfold normalized, NANOS_PER_SEC. cbn. lia.
  - lia.
  - unfold_c_ints. cbn. lia.
  - unfold_c_ints. cbn. lia.
Defined.

(** X2: for a normalized base the result of [mu_time_offset] is normalized
    exactly when the nanoseconds of the base plus the remainder of the delta
    are not negative; every other negative sum is returned as it is. *)
Theorem mu_time_offset_normalized_iff
  (base : mu_time_abs_t) (delta : mu_time_rel_t) :
  normalized base ->
  (normalized (mu_time_offset base delta)
   <-> 0 <= nanoseconds base + Z.rem delta 1000000000).
Proof.
  unfold normalized, mu_time_offset, NANOS_PER_SEC. intros Hb.
  assert (Hr : - 1000000000 < Z.rem delta 1000000000 < 1000000000)
    by (Z.quot_rem_to_equations; lia).
  assert (Hn : add64 (nanoseconds base) (rem64 delta 1000000000)
               = nanoseconds base + Z.rem delta 1000000000).
  { unfold add64, rem64. apply wrap64_id. unfold_c_ints. lia. }
  rewrite Hn.
  destruct (Z.leb_spec 1000000000 (nanoseconds base + Z.rem delta 1000000000));
    cbn [nanoseconds]; [| lia].
  unfold sub64. rewrite wrap64_id; [lia |]. unfold_c_ints. lia.
Qed.

Lemma mu_time_offset_normalized_iff_witness :
  normalized (mu_time_offset {| seconds := 1000; nanoseconds := 5 |} (-2000000005))
  <-> 0 <= nanoseconds {| seconds := 1000; nanoseconds := 5 |}
           + Z.rem (-2000000005) 1000000000.
Proof.
  apply (mu_time_offset_normalized_iff
           {| seconds := 1000; nanoseconds := 5 |} (-2000000005)).
  unfold normalized, NANOS_PER_SEC. cbn. lia.
Defined.

(** X3: a normalized timestamp moves in the direction of the sign of the
    delta: the result is after the base exactly for a positive delta, before
    it exactly for a negative one, and the base itself for zero, as long as
    the seconds stay within [time_t]. *)
Theorem mu_time_offset_direction
  (base : mu_time_abs_t) (delta : mu_time_rel_t) :
  normalized base ->
  in_int64 (seconds base + Z.quot delta 1000000000) ->
  in_int64 (seconds base + Z.quot delta 1000000000 + 1) ->
  mu_time_is_after (mu_time_offset base delta) base = (0 <? delta)
  /\ mu_time_is_before (mu_time_offset base delta) base = (delta <? 0)
  /\ (delta = 0 -> mu_time_offset base delta = base).
Proof.
  intros Hb Hs Hs1.
  rewrite (mu_time_offset_unwrapped base delta Hb Hs Hs1).
  rewrite mu_time_is_after_flip.
  unfold normalized, NANOS_PER_SEC in Hb.
  pose proof (quot_rem_nanos delta) as Hd.
  assert (Hr : - 1000000000 < Z.rem delta 1000000000 < 1000000000)
    by (Z.quot_rem_to_equations; lia).
  assert (Hsgn : 0 <= delta -> 0 <= Z.quot delta 1000000000
                               /\ 0 <= Z.rem delta 1000000000)
    by (Z.quot_rem_to_equations; lia).
  assert (Hsgn' : delta <= 0 -> Z.quot delta 1000000000 <= 0
                                /\ Z.rem delta 1000000000 <= 0)
    by (Z.quot_rem_to_equations; lia).
  destruct (Z.leb_spec 1000000000 (nanoseconds base + Z.rem delta 1000000000));
    (split; [| split]).
  all: try (intros ->; apply mu_time_abs_eq; cbn in *; lia).
  all: match goal with
       | |- ?b = (?x <? ?y) =>
           destruct (Z.ltb_spec x y);
           [ apply mu_time_is_before_spec | apply mu_time_is_before_false ];
           cbn [seconds nanoseconds]; lia
       end.
Qed.

Lemma mu_time_offset_direction_witness :
  mu_time_is_after
    (mu_time_offset {| seconds := 1000; nanoseconds := 0 |} (-1))
    {| seconds := 1000; nanoseconds := 0 |} = (0 <? -1)
  /\ mu_time_is_before
       (mu_time_offset {| seconds := 1000; nanoseconds := 0 |} (-1))
       {| seconds := 1000; nanoseconds := 0 |} = (-1 <? 0).
Proof.
  assert (Hb : normalized {| seconds := 1000; nanoseconds := 0 |})
    by (unfold normalized, NANOS_PER_SEC; cbn; lia).
  assert (Hs : in_int64 (seconds {| seconds := 1000; nanoseconds := 0 |}
                         + Z.quot (-1) 1000000000))
    by (unfold_c_ints; cbn; lia).
  assert (Hs1 : in_int64 (seconds {| seconds := 1000; nanoseconds := 0 |}
                          + Z.quot (-1) 1000000000 + 1))
    by (unfold_c_ints; cbn; lia).
  destruct (mu_time_offset_direction _ (-1) Hb Hs Hs1) as (Ha & Hbf & _).
  exact (conj Ha Hbf).
Defined.

(** X4: two forward offsets compose: offsetting by [d1] and then by [d2]
    gives the same timestamp as offsetting once by [d1 + d2], for a
    normalized base and deltas that are not negative, as long as the
    seconds stay within [time_t]. *)
Theorem mu_time_offset_compose
  (t : mu_time_abs_t) (d1 d2 : mu_time_rel_t) :
  normalized t -> 0 <= d1 -> 0 <= d2 -> in_int64 (d1 + d2) ->
  in_int64 (seconds t) ->
  seconds t + Z.quot (d1 + d2) 1000000000 + 2 <= INT64_MAX ->
  mu_time_offset (mu_time_offset t d1) d2 = mu_time_offset t (d1 + d2).
Proof.
  intros Ht H1 H2 H12 Hs Hmax.
  pose proof (quot_rem_nanos d1) as E1.
  pose proof (quot_rem_nanos d2) as E2.
  pose proof (quot_rem_nanos (d1 + d2)) as E12.
  assert (B1 : 0 <= Z.quot d1 1000000000 /\ 0 <= Z.rem d1 1000000000 < 1000000000)
    by (Z.quot_rem_to_equations; lia).
  assert (B2 : 0 <= Z.quot d2 1000000000 /\ 0 <= Z.rem d2 1000000000 < 1000000000)
    by (Z.quot_rem_to_equations; lia).
  assert (B12 : 0 <= Z.quot (d1 + d2) 1000000000
                /\ 0 <= Z.rem (d1 + d2) 1000000000 < 1000000000)
    by (Z.quot_rem_to_equations; lia).
  assert (Hfwd : forall b d, normalized b -> 0 <= d -> in_int64 (seconds b) ->
            seconds b + Z.quot d 1000000000 + 1 <= INT64_MAX ->
            normalized (mu_time_offset b d)
            /\ abs_nanos (mu_time_offset b d) = abs_nanos b + d
            /\ in_int64 (seconds (mu_time_offset b d))).
  { intros b d Hb Hd Hsb Hm.
    assert (Bd : 0 <= Z.quot d 1000000000) by (Z.quot_rem_to_equations; lia).
    split; [now apply mu_time_offset_nonneg_normalized | split].
    - apply mu_time_offset_exact; [exact Hb | |]; unfold_c_ints; lia.
    - rewrite mu_time_offset_unwrapped; [| exact Hb | |];
        try (unfold_c_ints; lia).
      destruct (1000000000 <=? _); cbn [seconds]; unfold_c_ints; lia. }
  destruct (Hfwd t d1 Ht H1 Hs) as (N1 & A1 & S1); [lia |].
  destruct (Hfwd t (d1 + d2) Ht) as (N12 & A12 & _); [lia | exact Hs | lia |].
  assert (Hs1 : seconds (mu_time_offset t d1) + Z.quot d2 1000000000 + 1
                <= INT64_MAX).
  { unfold normalized, abs_nanos, NANOS_PER_SEC in *. lia. }
  destruct (Hfwd (mu_time_offset t d1) d2 N1 H2 S1 Hs1) as (N2 & A2 & _).
  apply normalized_nanos_inj; [exact N2 | exact N12 |].
  rewrite A2, A1, A12. unfold mu_time_rel_t. ring.
Qed.

Lemma mu_time_offset_compose_witness :
  mu_time_offset
    (mu_time_offset {| seconds := 1000; nanoseconds := 600000000 |} 700000000)
    800000000
  = mu_time_offset {| seconds := 1000; nanoseconds := 600000000 |}
      (700000000 + 800000000).
Proof.
  apply (mu_time_offset_compose
           {| seconds := 1000; nanoseconds := 600000000 |} 700000000 800000000).
  - unfold normalized, NANOS_PER_SEC. cbn. lia.
  - lia.
  - lia.
  - unfold_c_ints. lia.
  - unfold_c_ints. cbn. lia.
  - unfold_c_ints. cbn. lia.
Defined.

(** ** Difference and order *)

(** X5: for normalized timestamps whose distance fits in [int64_t], the
    order is the sign of the difference: [a] is before [b] exactly when
    [mu_time_difference a b] is positive, after [b] exactly when it is
    negative, and the difference is zero only for equal timestamps. *)
Theorem mu_time_order_is_difference_sign (a b : mu_time_abs_t) :
  normalized a -> normalized b ->
  in_int64 (abs_nanos b - abs_nanos a) ->
  mu_time_is_before a b = (0 <? mu_time_difference a b)
  /\ mu_time_is_after a b = (mu_time_difference a b <? 0)
  /\ (mu_time_difference a b = 0 <-> a = b).
Proof.
  intros Ha Hb Hr.
  rewrite (mu_time_difference_exact a b Hr), mu_time_is_after_flip.
  pose proof (mu_time_is_before_nanos a b Ha Hb) as Hab.
  pose proof (mu_time_is_before_nanos b a Hb Ha) as Hba.
  split; [| split].
  - destruct (Z.ltb_spec 0 (abs_nanos b - abs_nanos a)).
    + apply Hab. lia.
    + apply not_true_iff_false. rewrite Hab. lia.
  - destruct (Z.ltb_spec (abs_nanos b - abs_nanos a) 0).
    + apply Hba. lia.
    + apply not_true_iff_false. rewrite Hba. lia.
  - split.
    + intros H. apply normalized_nanos_inj; [exact Ha | exact Hb | lia].
    + intros ->. lia.
Qed.

Lemma mu_time_order_is_difference_sign_witness :
  mu_time_is_before {| seconds := 1000; nanoseconds := 0 |}
                    {| seconds := 1002; nanoseconds := 500000000 |}
  = (0 <? mu_time_difference {| seconds := 1000; nanoseconds := 0 |}
                             {| seconds := 1002; nanoseconds := 500000000 |}).
Proof.
  apply (mu_time_order_is_difference_sign
           {| seconds := 1000; nanoseconds := 0 |}
           {| seconds := 1002; nanoseconds := 500000000 |}).
  - unfold normalized, NANOS_PER_SEC. cbn. lia.
  - unfold normalized, NANOS_PER_SEC. cbn. lia.
  - unfold_c_ints. cbn. lia.
Defined.

(** X6: differences add up along a path: the [int64_t] sum of the
    difference from [a] to [b] and the difference from [b] to [c] is the
    difference from [a] to [c]; in particular the difference of a timestamp
    with itself is zero. *)
Theorem mu_time_difference_triangle (a b c : mu_time_abs_t) :
  add64 (mu_time_difference a b) (mu_time_difference b c)
  = mu_time_difference a c
  /\ mu_time_difference a a = 0.
Proof.
  split.
  - rewrite !mu_time_difference_nanos. wrap64_to_eqm.
    match goal with |- eqm _ ?l ?r => replace r with l by ring end.
    reflexivity.
  - rewrite mu_time_difference_nanos, Z.sub_diag. reflexivity.
Qed.

(** X7: offsetting the second argument by [d] adds [d] to the difference
    (in [int64_t] arithmetic), for every timestamp and every delta. *)
Theorem mu_time_difference_after_offset
  (a b : mu_time_abs_t) (d : mu_time_rel_t) :
  mu_time_difference a (mu_time_offset b d)
  = add64 (mu_time_difference a b) d.
Proof.
  rewrite !mu_time_difference_nanos. wrap64_to_eqm.
  pose proof (mu_time_offset_nanos b d) as H.
  apply wrap64_eqm_iff in H. rewrite H.
  match goal with |- eqm _ ?l ?r => replace r with l by ring end.
  reflexivity.
Qed.

Lemma add64_add64_l (x y z : Z) : add64 (add64 x y) z = wrap64 (x + y + z).
Proof. unfold add64. apply wrap64_eqm_iff. now rewrite wrap64_eqm. Qed.

(** X8: offsetting [a] by the difference from [a] to [b] gives back [b],
    when both are normalized, [b] is not before [a] and the distance fits
    in [int64_t]. *)
Theorem mu_time_offset_difference (a b : mu_time_abs_t) :
  normalized a -> normalized b ->
  in_int64 (seconds b) ->
  0 <= abs_nanos b - abs_nanos a <= INT64_MAX ->
  mu_time_offset a (mu_time_difference a b) = b.
Proof.
  intros Ha Hb Hsb Hd.
  rewrite mu_time_difference_exact by (unfold_c_ints; lia).
  pose proof (quot_rem_nanos (abs_nanos b - abs_nanos a)) as E.
  assert (B : 0 <= Z.rem (abs_nanos b - abs_nanos a) 1000000000 < 1000000000)
    by (Z.quot_rem_to_equations; lia).
  unfold mu_time_offset, div64, rem64.
  set (q := Z.quot (abs_nanos b - abs_nanos a) 1000000000) in *.
  set (r := Z.rem (abs_nanos b - abs_nanos a) 1000000000) in *.
  unfold normalized, abs_nanos, NANOS_PER_SEC in *.
  assert (Hn : add64 (nanoseconds a) r = nanoseconds a + r).
  { unfold add64. apply wrap64_id. unfold_c_ints. lia. }
  rewrite Hn.
  destruct (Z.leb_spec 1000000000 (nanoseconds a + r));
    apply mu_time_abs_eq; cbn [seconds nanoseconds]; split.
  - rewrite add64_add64_l.
    replace (seconds a + q + 1) with (seconds b) by lia.
    now apply wrap64_id.
  - unfold sub64. rewrite wrap64_id; [lia |]. unfold_c_ints. lia.
  - unfold add64. replace (seconds a + q) with (seconds b) by lia.
    now apply wrap64_id.
  - lia.
Qed.

Lemma mu_time_offset_difference_witness :
  mu_time_offset {| seconds := 1000; nanoseconds := 900000000 |}
    (mu_time_difference {| seconds := 1000; nanoseconds := 900000000 |}
                        {| seconds := 1002; nanoseconds := 100000000 |})
  = {| seconds := 1002; nanoseconds := 100000000 |}.
Proof.
  apply (mu_time_offset_difference
           {| seconds := 1000; nanoseconds := 900000000 |}
           {| seconds := 1002; nanoseconds := 100000000 |}).
  - unfold normalized, NANOS_PER_SEC. cbn. lia.
  - unfold normalized, NANOS_PER_SEC. cbn. lia.
  - unfold_c_ints. cbn. lia.
  - unfold abs_nanos, NANOS_PER_SEC, INT64_MAX. cbn. lia.
Defined.

(** X9: forward offsets preserve the order: for normalized [a] and [b] and
    a delta that is not negative, [a] is before [b] exactly when the offset
    of [a] is before the offset of [b], as long as the seconds stay within
    [time_t]. *)
Theorem mu_time_offset_monotone (a b : mu_time_abs_t) (d : mu_time_rel_t) :
  normalized a -> normalized b -> 0 <= d ->
  in_int64 (seconds a) -> in_int64 (seconds b) ->
  seconds a + Z.quot d 1000000000 + 1 <= INT64_MAX ->
  seconds b + Z.quot d 1000000000 + 1 <= INT64_MAX ->
  mu_time_is_before (mu_time_offset a d) (mu_time_offset b d)
  = mu_time_is_before a b.
Proof.
  intros Ha Hb Hd Hsa Hsb Hma Hmb.
  assert (Bd : 0 <= Z.quot d 1000000000) by (Z.quot_rem_to_equations; lia).
  pose proof (mu_time_offset_nonneg_normalized a d Ha Hd) as Na.
  pose proof (mu_time_offset_nonneg_normalized b d Hb Hd) as Nb.
  assert (Ea : abs_nanos (mu_time_offset a d) = abs_nanos a + d)
    by (apply mu_time_offset_exact; [exact Ha | |]; unfold_c_ints; lia).
  assert (Eb : abs_nanos (mu_time_offset b d) = abs_nanos b + d)
    by (apply mu_time_offset_exact; [exact Hb | |]; unfold_c_ints; lia).
  pose proof (mu_time_is_before_nanos _ _ Na Nb) as H1.
  pose proof (mu_time_is_before_nanos _ _ Ha Hb) as H2.
  rewrite Ea, Eb in H1.
  destruct (mu_time_is_before a b) eqn:Hab.
  - apply H1. apply proj1 in H2. specialize (H2 eq_refl). lia.
  - apply not_true_iff_false. rewrite H1. intros Hlt.
    apply proj2 in H2. assert (Habs : false = true) by (apply H2; lia).
    discriminate Habs.
Qed.

Lemma mu_time_offset_monotone_witness :
  mu_time_is_before
    (mu_time_offset {| seconds := 1000; nanoseconds := 999999999 |} 1)
    (mu_time_offset {| seconds := 1001; nanoseconds := 0 |} 1)
  = mu_time_is_before {| seconds := 1000; nanoseconds := 999999999 |}
                      {| seconds := 1001; nanoseconds := 0 |}.
Proof.
  apply (mu_time_offset_monotone
           {| seconds := 1000; nanoseconds := 999999999 |}
           {| seconds := 1001; nanoseconds := 0 |} 1).
  - unfold normalized, NANOS_PER_SEC. cbn. lia.
  - unfold normalized, NANOS_PER_SEC. cbn. lia.
  - lia.
  - unfold_c_ints. cbn. lia.
  - unfold_c_ints. cbn. lia.
  - unfold_c_ints. cbn. lia.
  - unfold_c_ints. cbn. lia.
Defined.

(** ** Milliseconds, continued *)

Lemma mu_time_rel_from_millis_range (n : Z) :
  0 <= mu_time_rel_from_millis n < 4294967296.
Proof.
  unfold mu_time_rel_from_millis, mulu32, wrapu32, uint32_modulus.
  apply Z.mod_pos_bound. lia.
Qed.

(** X10: whatever the argument, [mu_time_rel_from_millis] returns less than
    2^32 nanoseconds, and converting its result back gives at most 4294
    milliseconds. *)
Theorem mu_time_rel_from_millis_bounded (n : Z) :
  0 <= mu_time_rel_from_millis n < 4294967296
  /\ 0 <= mu_time_rel_to_millis (mu_time_rel_from_millis n) <= 4294.
Proof.
  pose proof (mu_time_rel_from_millis_range n) as H.
  split; [exact H |].
  unfold mu_time_rel_to_millis, wrapu32, div64, uint32_modulus.
  rewrite Z.quot_div_nonneg by lia.
  rewrite Z.mod_small; Z.div_mod_to_equations; lia.
Qed.

(** X11: for an [uint32_t] argument the conversion from milliseconds is
    the exact scaling by one million exactly up to 4294 ms, and the round
    trip through [mu_time_rel_to_millis] gives the argument back exactly up
    to 4294 ms. *)
Theorem mu_time_rel_millis_exact_iff (n : Z) :
  in_uint32 n ->
  (mu_time_rel_from_millis n = n * 1000000 <-> n <= 4294)
  /\ (mu_time_rel_to_millis (mu_time_rel_from_millis n) = n <-> n <= 4294).
Proof.
  unfold in_uint32. intros Hn.
  pose proof (mu_time_rel_from_millis_range n) as Hr.
  destruct (Z.le_gt_cases n 4294) as [Hle | Hgt].
  - destruct (mu_time_rel_millis_roundtrip_small n) as [H1 H2]; [lia |].
    rewrite H2, H1.
    split; split; intros _; (reflexivity || exact Hle).
  - split; split; intros H; try lia; exfalso.
    revert H. unfold mu_time_rel_to_millis, wrapu32, div64, uint32_modulus.
    rewrite Z.quot_div_nonneg by lia.
    rewrite Z.mod_small; Z.div_mod_to_equations; lia.
Qed.

Lemma mu_time_rel_millis_exact_iff_witness :
  (mu_time_rel_from_millis 4295 = 4295 * 1000000 <-> 4295 <= 4294)
  /\ (mu_time_rel_to_millis (mu_time_rel_from_millis 4295) = 4295
      <-> 4295 <= 4294).
Proof.
  apply (mu_time_rel_millis_exact_iff 4295).
  unfold in_uint32, uint32_modulus. lia.
Defined.

(** X12: [mu_time_rel_to_millis] undoes the exact scaling and discards what
    is left of a millisecond: for an [uint32_t] count [n] and [r] below one
    million nanoseconds, [n * 1000000 + r] converts to [n]. *)
Theorem mu_time_rel_to_millis_scaled (n r : Z) :
  in_uint32 n -> 0 <= r < 1000000 ->
  mu_time_rel_to_millis (n * 1000000 + r) = n.
Proof.
  unfold in_uint32, uint32_modulus. intros Hn Hr.
  unfold mu_time_rel_to_millis, wrapu32, div64, uint32_modulus.
  rewrite Z.quot_div_nonneg by lia.
  replace ((n * 1000000 + r) / 1000000) with n
    by (Z.div_mod_to_equations; lia).
  apply Z.mod_small. lia.
Qed.

Lemma mu_time_rel_to_millis_scaled_witness :
  mu_time_rel_to_millis (4294967295 * 1000000 + 999999) = 4294967295.
Proof.
  apply (mu_time_rel_to_millis_scaled 4294967295 999999).
  - unfold in_uint32, uint32_modulus. lia.
  - lia.
Defined.

(** X13: the millisecond count wraps every 2^32 ms: adding a multiple of
    4294967296000000 ns to a delta that is not negative does not change
    the result, as long as the sum is an [int64_t] value. *)
Theorem mu_time_rel_to_millis_periodic (delta k : Z) :
  0 <= delta -> 0 <= k ->
  in_int64 (delta + k * 4294967296000000) ->
  mu_time_rel_to_millis (delta + k * 4294967296000000)
  = mu_time_rel_to_millis delta.
Proof.
  intros Hd Hk _.
  unfold mu_time_rel_to_millis, wrapu32, div64, uint32_modulus.
  rewrite !Z.quot_div_nonneg by lia.
  replace (delta + k * 4294967296000000)
    with (delta + (k * 4294967296) * 1000000) by ring.
  rewrite Z.div_add by lia.
  apply Z.mod_add. lia.
Qed.

Lemma mu_time_rel_to_millis_periodic_witness :
  mu_time_rel_to_millis (1500000000 + 1 * 4294967296000000)
  = mu_time_rel_to_millis 1500000000.
Proof.
  apply (mu_time_rel_to_millis_periodic 1500000000 1);
    unfold_c_ints; lia.
Defined.

(** ** The clock test *)

(** X14: with two successful reads of the clock, [test_mu_time_now] passes
    exactly when the first read is after the epoch second, has its
    nanoseconds in range, and its seconds do not exceed the seconds of the
    second read; the nanoseconds of the second read play no part. *)
Theorem test_mu_time_now_passes_iff (ts1 ts2 stack1 stack2 : timespec) :
  test_mu_time_now (ClockOk ts1) (ClockOk ts2) stack1 stack2 = true
  <-> 0 < tv_sec ts1
      /\ 0 <= tv_nsec ts1 < 1000000000
      /\ tv_sec ts1 <= tv_sec ts2.
Proof.
  unfold test_mu_time_now, mu_time_now, clock_gettime, mu_time_is_before.
  cbn [seconds nanoseconds].
  rewrite !andb_true_iff, !orb_true_iff, andb_true_iff.
  rewrite Z.gtb_ltb, Z.geb_leb, !Z.ltb_lt, Z.leb_le, !Z.eqb_eq. lia.
Qed.

(** ** Floating-point seconds, continued *)

(** The sign of a rounded result is the sign it was given; the magnitude
    does not depend on it. *)
Lemma binary_round_aux_negb (prec emax : Z) (s : bool) (m e : Z) (l : location) :
  binary_round_aux prec emax (negb s) m e l
  = SFopp (binary_round_aux prec emax s m e l).
Proof.
  unfold binary_round_aux.
  destruct (shr_fexp prec emax m e l) as [mrs' e'].
  destruct (shr_fexp prec emax _ e' loc_Exact) as [mrs'' e''].
  destruct (shr_m mrs''); [reflexivity | | reflexivity].
  destruct (e'' <=? emax - prec); reflexivity.
Qed.

Lemma f32_mul_opp_l (x y : spec_float) :
  f32_mul (SFopp x) y = SFopp (f32_mul x y).
Proof.
  unfold f32_mul.
  destruct x as [sx | sx | | sx mx ex], y as [sy | sy | | sy my ey];
    cbn [SFopp SFmul]; try reflexivity;
    try (destruct sx, sy; reflexivity).
  rewrite <- binary_round_aux_negb. destruct sx, sy; reflexivity.
Qed.

Lemma f32_div_opp_l (x y : spec_float) :
  f32_div (SFopp x) y = SFopp (f32_div x y).
Proof.
  unfold f32_div.
  destruct x as [sx | sx | | sx mx ex], y as [sy | sy | | sy my ey];
    cbn [SFopp SFdiv]; try reflexivity;
    try (destruct sx, sy; reflexivity).
  destruct (SFdiv_core_binary f32_prec f32_emax (Z.pos mx) ex (Z.pos my) ey)
    as [[mz ez] lz].
  rewrite <- binary_round_aux_negb. destruct sx, sy; reflexivity.
Qed.

Lemma f32_of_int_opp (n : Z) :
  n <> 0 -> f32_of_int (- n) = SFopp (f32_of_int n).
Proof.
  unfold f32_of_int, binary_normalize, binary_round.
  destruct n as [| p | p]; [congruence | |]; intros _; cbn [Z.opp];
    destruct (shl_align p 0 _) as [mz ez];
    [ apply (binary_round_aux_negb f32_prec f32_emax false)
    | rewrite (binary_round_aux_negb f32_prec f32_emax false); 
      now destruct (binary_round_aux f32_prec f32_emax false _ _ _) as [[]|[]| |[]] ].
Qed.

Lemma f32_to_int64_opp (p : spec_float) (r : Z) :
  f32_to_int64 p = Some r -> INT64_MIN < r ->
  f32_to_int64 (SFopp p) = Some (- r).
Proof.
  destruct p as [s | s | | s m e]; cbn [f32_to_int64 SFopp]; try discriminate.
  - intros [= <-] _. reflexivity.
  - destruct (_ && _) eqn:Hrange; [| discriminate].
    intros [= <-] Hmin.
    apply andb_true_iff in Hrange. destruct Hrange as [Hlo Hhi].
    apply Z.leb_le in Hlo, Hhi.
    assert (Hopp : cond_Zopp (negb s) (Z.shiftl (Z.pos m) e)
                   = - cond_Zopp s (Z.shiftl (Z.pos m) e))
      by (destruct s; cbn; lia).
    rewrite Hopp.
    assert (Hlo' : (INT64_MIN <=? - cond_Zopp s (Z.shiftl (Z.pos m) e)) = true)
      by (apply Z.leb_le; unfold_c_ints; lia).
    assert (Hhi' : (- cond_Zopp s (Z.shiftl (Z.pos m) e) <=? INT64_MAX) = true)
      by (apply Z.leb_le; unfold_c_ints; lia).
    now rewrite Hlo', Hhi'.
Qed.

(** X15: the conversion from seconds is odd, as truncation toward zero
    demands: when [x] converts to [r], and [r] is not [INT64_MIN], the
    opposite of [x] converts to the opposite of [r]. *)
Theorem mu_time_rel_from_seconds_opp (x : spec_float) (r : Z) :
  mu_time_rel_from_seconds x = Some r -> INT64_MIN < r ->
  mu_time_rel_from_seconds (SFopp x) = Some (- r).
Proof.
  unfold mu_time_rel_from_seconds. intros Hx Hmin.
  rewrite f32_mul_opp_l. now apply f32_to_int64_opp.
Qed.

Lemma mu_time_rel_from_seconds_opp_witness :
  mu_time_rel_from_seconds (SFopp f32_0_7) = Some (- 700000000).
Proof.
  apply (mu_time_rel_from_seconds_opp f32_0_7 700000000).
  - reflexivity.
  - unfold INT64_MIN. lia.
Defined.

(** X16: a result is only defined for a finite input, and it is then an
    [int64_t] value: NaN and the infinities have no conversion. *)
Theorem mu_time_rel_from_seconds_defined (x : spec_float) (r : Z) :
  mu_time_rel_from_seconds x = Some r ->
  f32_is_finite x = true /\ in_int64 r.
Proof.
  unfold mu_time_rel_from_seconds. intros H. split.
  - destruct x as [sx | sx | | sx mx ex]; try reflexivity;
      exfalso; revert H; vm_compute; discriminate.
  - destruct (f32_mul x (f32_of_int 1000000000)) as [s | s | | s m e];
      cbn [f32_to_int64] in H; try discriminate.
    + injection H as <-. unfold_c_ints. lia.
    + destruct (_ && _) eqn:Hrange; [| discriminate].
      injection H as <-.
      apply andb_true_iff in Hrange. destruct Hrange as [Hlo Hhi].
      apply Z.leb_le in Hlo, Hhi. split; assumption.
Qed.

Lemma mu_time_rel_from_seconds_defined_witness :
  f32_is_finite f32_1_5 = true /\ in_int64 1500000000.
Proof.
  apply (mu_time_rel_from_seconds_defined f32_1_5 1500000000).
  reflexivity.
Defined.

(** X17: the conversion to seconds is odd: for an [int64_t] delta other
    than zero and [INT64_MIN], whose negation is again an [int64_t], the
    negated delta converts to the opposite [float]. *)
Theorem mu_time_rel_to_seconds_opp (delta_t : mu_time_rel_t) :
  in_int64 delta_t -> delta_t <> 0 -> delta_t <> INT64_MIN ->
  mu_time_rel_to_seconds (neg64 delta_t)
  = SFopp (mu_time_rel_to_seconds delta_t).
Proof.
  intros Hr Hd Hmin. unfold mu_time_rel_to_seconds, neg64.
  rewrite wrap64_id by (unfold_c_ints; lia).
  now rewrite f32_of_int_opp, f32_div_opp_l.
Qed.

Lemma mu_time_rel_to_seconds_opp_witness :
  mu_time_rel_to_seconds (neg64 1500000000)
  = SFopp (mu_time_rel_to_seconds 1500000000).
Proof.
  apply (mu_time_rel_to_seconds_opp 1500000000); unfold_c_ints; lia.
Defined.
